(** * gpio_button_led: debounce-and-toggle driver (src/target/src/gpioctrl.c)

    A shallow embedding of the kernel module and the proofs of its
    specification.

    - C integers are [Z] with the conversions written out: [unsigned long]
      and [unsigned int] are 32 bits wide (the module is built for 32-bit
      ARM: gpioctrl.mod.c links against [__gnu_mcount_nc]); [int] results
      of kernel calls are kept as the kernel produced them.
    - The module's static variables are the fields of [machine].
    - Every call into the kernel is appended to [klog], with its arguments
      and its result; what the kernel answers is read from [kernel_api]
      (initialisation) or passed with the invocation (the value of
      [jiffies] and the level sampled by [gpio_get_value]).
    - [printk] calls are diagnostics only and are left out of the log. *)

From Stdlib Require Import ZArith List Bool Lia.
Import ListNotations.
Local Open Scope Z_scope.

(** ** Integer types *)

Definition ULONG_BITS : Z := 32.
Definition UINT_BITS : Z := 32.

(** Conversion to [unsigned long] / [unsigned int]: reduction modulo 2^32. *)
Definition to_ulong (z : Z) : Z := z mod 2 ^ ULONG_BITS.
Definition to_uint (z : Z) : Z := z mod 2 ^ UINT_BITS.

(** Conversion of an [unsigned int] to [int] (two's complement). *)
Definition to_int (z : Z) : Z :=
  let u := z mod 2 ^ UINT_BITS in
  if u <? 2 ^ (UINT_BITS - 1) then u else u - 2 ^ UINT_BITS.

(** [a - b] on [unsigned long] operands. *)
Definition ulong_sub (a b : Z) : Z := to_ulong (a - b).

(** ** Constants of the driver *)

Definition BUTTON_GPIO : Z := 44.
Definition LED_GPIO : Z := 61.
Definition ENODEV : Z := 19.
Definition ENOMEM : Z := 12.

(** ** Calls into the kernel *)

Inductive kevent : Type :=
| Kgpio_request (gpio ret : Z)
| Kgpio_free (gpio : Z)
| Kgpio_direction_input (gpio ret : Z)
| Kgpio_direction_output (gpio value ret : Z)
| Kgpio_get_value (gpio ret : Z)
| Kgpio_set_value (gpio value : Z)
| Kcreate_singlethread_workqueue (non_null : bool)
| Kdestroy_workqueue
| KINIT_WORK
| Kgpio_to_irq (gpio ret : Z)
| Krequest_irq (irq ret : Z)
| Kfree_irq (irq : Z)
| Kqueue_work.

(** What the kernel answers to the calls whose result the driver uses.
    [msecs_to_jiffies] depends on the kernel's HZ and is a parameter too. *)
Record kernel_api : Type := {
  k_gpio_is_valid : Z -> bool;
  k_gpio_request : Z -> Z;
  k_gpio_direction_input : Z -> Z;
  k_gpio_direction_output : Z -> Z -> Z;
  k_create_singlethread_workqueue : bool;
  k_gpio_to_irq : Z -> Z;
  k_request_irq : Z -> Z;
  k_msecs_to_jiffies : Z -> Z
}.

(** ** State *)

Record machine : Type := {
  irq_number : Z;             (* static unsigned int irq_number *)
  led_state : bool;           (* static bool led_state = false *)
  button_wq : bool;           (* button_wq != NULL *)
  last_interrupt_time : Z;    (* static unsigned long, local to the handler *)
  klog : list kevent          (* kernel calls made so far, oldest first *)
}.

(** The module as loaded, before [gpio_button_led_init] runs. *)
Definition module_loaded : machine :=
  {| irq_number := 0; led_state := false; button_wq := false;
     last_interrupt_time := 0; klog := [] |}.

Definition set_irq_number (v : Z) (s : machine) : machine :=
  {| irq_number := v; led_state := led_state s; button_wq := button_wq s;
     last_interrupt_time := last_interrupt_time s; klog := klog s |}.
Definition set_led_state (v : bool) (s : machine) : machine :=
  {| irq_number := irq_number s; led_state := v; button_wq := button_wq s;
     last_interrupt_time := last_interrupt_time s; klog := klog s |}.
Definition set_button_wq (v : bool) (s : machine) : machine :=
  {| irq_number := irq_number s; led_state := led_state s; button_wq := v;
     last_interrupt_time := last_interrupt_time s; klog := klog s |}.
Definition set_last_interrupt_time (v : Z) (s : machine) : machine :=
  {| irq_number := irq_number s; led_state := led_state s;
     button_wq := button_wq s; last_interrupt_time := v; klog := klog s |}.
Definition log (e : kevent) (s : machine) : machine :=
  {| irq_number := irq_number s; led_state := led_state s;
     button_wq := button_wq s;
     last_interrupt_time := last_interrupt_time s; klog := klog s ++ [e] |}.

(** ** A state monad for the driver's code *)

Definition M (A : Type) : Type := machine -> A * machine.

Definition ret {A} (a : A) : M A := fun s => (a, s).
Definition bind {A B} (m : M A) (k : A -> M B) : M B :=
  fun s => let (a, s') := m s in k a s'.
Definition get : M machine := fun s => (s, s).
Definition modify (f : machine -> machine) : M unit := fun s => (tt, f s).

Declare Scope drv_scope.
Delimit Scope drv_scope with drv.
Notation "x <- m ;; k" := (bind m (fun x => k))
  (at level 61, m at next level, right associativity) : drv_scope.
Notation "m ;;; k" := (bind m (fun _ => k))
  (at level 61, right associativity) : drv_scope.
Local Open Scope drv_scope.

Definition exec {A} (m : M A) (s : machine) : machine := snd (m s).
Definition eval {A} (m : M A) (s : machine) : A := fst (m s).

(** ** The kernel calls, as the driver makes them *)

Section Driver.

Variable api : kernel_api.

Definition gpio_is_valid (gpio : Z) : M bool := ret (k_gpio_is_valid api gpio).
Definition gpio_request (gpio : Z) : M Z :=
  let r := k_gpio_request api gpio in modify (log (Kgpio_request gpio r)) ;;; ret r.
Definition gpio_free (gpio : Z) : M unit := modify (log (Kgpio_free gpio)).
Definition gpio_direction_input (gpio : Z) : M Z :=
  let r := k_gpio_direction_input api gpio in
  modify (log (Kgpio_direction_input gpio r)) ;;; ret r.
Definition gpio_direction_output (gpio value : Z) : M Z :=
  let r := k_gpio_direction_output api gpio value in
  modify (log (Kgpio_direction_output gpio value r)) ;;; ret r.
Definition gpio_get_value (level : Z) (gpio : Z) : M Z :=
  modify (log (Kgpio_get_value gpio level)) ;;; ret level.
Definition gpio_set_value (gpio value : Z) : M unit :=
  modify (log (Kgpio_set_value gpio value)).
Definition create_singlethread_workqueue : M bool :=
  let r := k_create_singlethread_workqueue api in
  modify (log (Kcreate_singlethread_workqueue r)) ;;; ret r.
Definition destroy_workqueue : M unit := modify (log Kdestroy_workqueue).
Definition INIT_WORK : M unit := modify (log KINIT_WORK).
Definition gpio_to_irq (gpio : Z) : M Z :=
  let r := k_gpio_to_irq api gpio in modify (log (Kgpio_to_irq gpio r)) ;;; ret r.
Definition request_irq (irq : Z) : M Z :=
  let r := k_request_irq api irq in modify (log (Krequest_irq irq r)) ;;; ret r.
Definition free_irq (irq : Z) : M unit := modify (log (Kfree_irq irq)).
Definition queue_work : M unit := modify (log Kqueue_work).
Definition msecs_to_jiffies (m : Z) : Z := to_ulong (k_msecs_to_jiffies api m).

(** ** button_work_handler (gpioctrl.c, lines 25-45)

    [jiffies] is the value of the tick counter read on entry, [level] what
    [gpio_get_value(BUTTON_GPIO)] returns if it is called. *)
Definition button_work_handler (jiffies level : Z) : M unit :=
  s <- get ;;
  let interrupt_time := to_ulong jiffies in
  if ulong_sub interrupt_time (last_interrupt_time s) <? msecs_to_jiffies 200
  then ret tt
  else
    modify (set_last_interrupt_time interrupt_time) ;;;
    v <- gpio_get_value level BUTTON_GPIO ;;
    if v =? 0 then
      s <- get ;;
      modify (set_led_state (negb (led_state s))) ;;;
      s <- get ;;
      gpio_set_value LED_GPIO (Z.b2z (led_state s))
    else ret tt.

(** ** button_irq_handler (lines 48-53) *)
Definition button_irq_handler : M unit := queue_work.

(** ** gpio_button_led_init (lines 56-144); the labels first *)
Definition fail_button_direction (result : Z) : M Z :=
  gpio_free BUTTON_GPIO ;;; ret result.
Definition fail_led_direction (result : Z) : M Z :=
  gpio_free LED_GPIO ;;; fail_button_direction result.
Definition fail_workqueue (result : Z) : M Z :=
  destroy_workqueue ;;; fail_led_direction result.

Definition gpio_button_led_init : M Z :=
  valid <- gpio_is_valid BUTTON_GPIO ;;
  if negb valid then ret (- ENODEV) else
  result <- gpio_request BUTTON_GPIO ;;
  if result <? 0 then ret result else
  result <- gpio_direction_input BUTTON_GPIO ;;
  if result <? 0 then fail_button_direction result else
  valid <- gpio_is_valid LED_GPIO ;;
  if negb valid then fail_button_direction (- ENODEV) else
  result <- gpio_request LED_GPIO ;;
  if result <? 0 then fail_button_direction result else
  result <- gpio_direction_output LED_GPIO 0 ;;
  if result <? 0 then fail_led_direction result else
  wq <- create_singlethread_workqueue ;;
  modify (set_button_wq wq) ;;;
  if negb wq then fail_led_direction (- ENOMEM) else
  INIT_WORK ;;;
  irq <- gpio_to_irq BUTTON_GPIO ;;
  modify (set_irq_number (to_uint irq)) ;;;
  s <- get ;;
  if irq_number s <? 0 then fail_workqueue (to_int (irq_number s)) else
  result <- request_irq (irq_number s) ;;
  if result <? 0 then fail_workqueue result else
  ret 0.

(** ** gpio_button_led_exit (lines 147-163) *)
Definition gpio_button_led_exit : M unit :=
  s <- get ;;
  free_irq (irq_number s) ;;;
  destroy_workqueue ;;;
  gpio_set_value LED_GPIO 0 ;;;
  gpio_free LED_GPIO ;;;
  gpio_free BUTTON_GPIO.

End Driver.

(** ** What the kernel log says about lines and resources *)

(** The level line [gpio] is driven to after one more call. *)
Definition drive (gpio : Z) (level : option Z) (e : kevent) : option Z :=
  match e with
  | Kgpio_direction_output g v r =>
      if (g =? gpio) && negb (r <? 0) then Some v else level
  | Kgpio_set_value g v => if g =? gpio then Some v else level
  | _ => level
  end.

(** The last level written to line [gpio], if any. *)
Definition last_written (gpio : Z) (l : list kevent) : option Z :=
  fold_left (drive gpio) l None.

(** The writes made with [gpio_set_value]. *)
Definition is_set_value (e : kevent) : bool :=
  match e with Kgpio_set_value _ _ => true | _ => false end.
Definition set_values (l : list kevent) : list kevent := filter is_set_value l.

Inductive resource : Type :=
| Line (gpio : Z)
| Workqueue
| Irq (irq : Z).

Definition resource_eqb (a b : resource) : bool :=
  match a, b with
  | Line g, Line h => g =? h
  | Workqueue, Workqueue => true
  | Irq i, Irq j => i =? j
  | _, _ => false
  end.

(** A call acquires a resource when the driver takes its result for a
    success (the result is not negative, the pointer is not NULL). *)
Definition acquired (e : kevent) : option resource :=
  match e with
  | Kgpio_request g r => if r <? 0 then None else Some (Line g)
  | Kcreate_singlethread_workqueue true => Some Workqueue
  | Krequest_irq irq r => if r <? 0 then None else Some (Irq irq)
  | _ => None
  end.

Definition released (e : kevent) : option resource :=
  match e with
  | Kgpio_free g => Some (Line g)
  | Kdestroy_workqueue => Some Workqueue
  | Kfree_irq irq => Some (Irq irq)
  | _ => None
  end.

Fixpoint collect {A B} (f : A -> option B) (l : list A) : list B :=
  match l with
  | [] => []
  | a :: l' => match f a with
               | Some b => b :: collect f l'
               | None => collect f l'
               end
  end.

Definition acquisitions (l : list kevent) : list resource := collect acquired l.
Definition releases (l : list kevent) : list resource := collect released l.

(** The resources held after a log, most recent first, under the stack
    discipline: a release must give back the most recently acquired
    resource still held.  [None] when a release breaks the discipline. *)
Definition hold (st : option (list resource)) (e : kevent)
  : option (list resource) :=
  match st with
  | None => None
  | Some held =>
      match acquired e, released e with
      | Some r, _ => Some (r :: held)
      | None, Some r =>
          match held with
          | top :: rest => if resource_eqb top r then Some rest else None
          | [] => None
          end
      | None, None => Some held
      end
  end.

Definition held (l : list kevent) : option (list resource) :=
  fold_left hold l (Some []).

Definition is_irq (r : resource) : bool :=
  match r with Irq _ => true | _ => false end.

(** An interrupt was armed at some point of the log. *)
Definition irq_armed (l : list kevent) : bool :=
  existsb is_irq (acquisitions l).

(** ** The life of the module between init and exit *)

Inductive activity : Type :=
| Edge                          (* the interrupt fires *)
| Work (jiffies level : Z).     (* the work item runs *)

Definition perform (api : kernel_api) (a : activity) : M unit :=
  match a with
  | Edge => button_irq_handler
  | Work jiffies level => button_work_handler api jiffies level
  end.

Fixpoint run (api : kernel_api) (acts : list activity) (s : machine) : machine :=
  match acts with
  | [] => s
  | a :: acts' => run api acts' (exec (perform api a) s)
  end.

(** The states after each activity, in order. *)
Fixpoint states (api : kernel_api) (acts : list activity) (s : machine)
  : list machine :=
  match acts with
  | [] => []
  | a :: acts' =>
      let s' := exec (perform api a) s in s' :: states api acts' s'
  end.

(** For each activity, whether it changed [led_state]. *)
Fixpoint toggles (api : kernel_api) (acts : list activity) (s : machine)
  : list bool :=
  match acts with
  | [] => []
  | a :: acts' =>
      let s' := exec (perform api a) s in
      negb (Bool.eqb (led_state s) (led_state s')) :: toggles api acts' s'
  end.

(** [led_state] is the last level written to the LED line. *)
Definition mirrors (s : machine) : Prop :=
  last_written LED_GPIO (klog s) = Some (Z.b2z (led_state s)).

(** The debounce window, in ticks. *)
Definition DebounceWindow (api : kernel_api) : Z := msecs_to_jiffies api 200.

(** Ticks elapsed since the stored timestamp, as the handler computes them. *)
Definition elapsed (jiffies : Z) (s : machine) : Z :=
  ulong_sub (to_ulong jiffies) (last_interrupt_time s).

(** Each timestamp is at least one window after the one before it, the
    first one after [prev]. *)
Fixpoint spaced (api : kernel_api) (prev : Z) (ts : list Z) : Prop :=
  match ts with
  | [] => True
  | t :: ts' =>
      DebounceWindow api <= ulong_sub (to_ulong t) prev /\
      spaced api (to_ulong t) ts'
  end.

(** Consecutive timestamps are at least one window apart; nothing is asked
    of the first one. *)
Definition spaced_apart (api : kernel_api) (ts : list Z) : Prop :=
  match ts with
  | [] => True
  | t :: ts' => spaced api (to_ulong t) ts'
  end.

Definition pressed_at (t : Z) : activity := Work t 0.

(** A kernel where every call succeeds and one tick is one millisecond
    (HZ = 1000). *)
Definition kernel_hz1000 : kernel_api :=
  {| k_gpio_is_valid := fun _ => true;
     k_gpio_request := fun _ => 0;
     k_gpio_direction_input := fun _ => 0;
     k_gpio_direction_output := fun _ _ => 0;
     k_create_singlethread_workqueue := true;
     k_gpio_to_irq := fun gpio => 100 + gpio;
     k_request_irq := fun _ => 0;
     k_msecs_to_jiffies := fun m => m |}.


(** [z] is a value of type [int]. *)
Definition is_int (z : Z) : Prop :=
  - 2 ^ (UINT_BITS - 1) <= z < 2 ^ (UINT_BITS - 1).

Definition EINVAL : Z := 22.

(** What the driver relies on from [request_irq]: the kernel's
    request_threaded_irq (the symbol the module links against) looks up
    the descriptor of the number it is given and fails when there is none.
    No interrupt has a number with the top bit set, which is where a
    negative errno lands once stored in an [unsigned int]. *)
Definition request_irq_checks_number (api : kernel_api) : Prop :=
  forall irq : Z, 2 ^ (UINT_BITS - 1) <= irq -> k_request_irq api irq < 0.

(** The same kernel, but the button line has no interrupt: [gpio_to_irq]
    answers -ENXIO (-6), and [request_irq] answers -EINVAL for a number
    without descriptor. *)
Definition kernel_no_irq : kernel_api :=
  {| k_gpio_is_valid := fun _ => true;
     k_gpio_request := fun _ => 0;
     k_gpio_direction_input := fun _ => 0;
     k_gpio_direction_output := fun _ _ => 0;
     k_create_singlethread_workqueue := true;
     k_gpio_to_irq := fun _ => -6;
     k_request_irq := fun irq => if 2 ^ 31 <=? irq then - EINVAL else 0;
     k_msecs_to_jiffies := fun m => m |}.

(** The state after a successful start on [kernel_hz1000]. *)
Definition started : machine := exec (gpio_button_led_init kernel_hz1000) module_loaded.

(** The state an accepted evaluation leaves behind. *)
Definition accepted_state (jiffies level : Z) (s : machine) : machine :=
  {| irq_number := irq_number s;
     led_state := if level =? 0 then negb (led_state s) else led_state s;
     button_wq := button_wq s;
     last_interrupt_time := to_ulong jiffies;
     klog := klog s ++ Kgpio_get_value BUTTON_GPIO level ::
             (if level =? 0
              then [Kgpio_set_value LED_GPIO (Z.b2z (negb (led_state s)))]
              else []) |}.

(** The calls of an initialisation that goes through, in order. *)
Definition init_calls (api : kernel_api) : list kevent :=
  [Kgpio_request BUTTON_GPIO (k_gpio_request api BUTTON_GPIO);
   Kgpio_direction_input BUTTON_GPIO (k_gpio_direction_input api BUTTON_GPIO);
   Kgpio_request LED_GPIO (k_gpio_request api LED_GPIO);
   Kgpio_direction_output LED_GPIO 0 (k_gpio_direction_output api LED_GPIO 0);
   Kcreate_singlethread_workqueue true;
   KINIT_WORK;
   Kgpio_to_irq BUTTON_GPIO (k_gpio_to_irq api BUTTON_GPIO);
   Krequest_irq (to_uint (k_gpio_to_irq api BUTTON_GPIO))
     (k_request_irq api (to_uint (k_gpio_to_irq api BUTTON_GPIO)))].

(** An evaluation that reads a time less than one window away from 0
    (an interrupt is always early). *)
Definition early (api : kernel_api) (a : activity) : Prop :=
  match a with
  | Edge => True
  | Work jiffies _ => ulong_sub (to_ulong jiffies) 0 < DebounceWindow api
  end.

(** ** Further observations on the log and on start-up *)

(** The values passed to [gpio_set_value] for line [gpio], oldest first. *)
Fixpoint writes (gpio : Z) (l : list kevent) : list Z :=
  match l with
  | [] => []
  | Kgpio_set_value g v :: l' =>
      if g =? gpio then v :: writes gpio l' else writes gpio l'
  | _ :: l' => writes gpio l'
  end.

(** [n] successive flips of a boolean that starts at [b], as line levels. *)
Fixpoint blink (b : bool) (n : nat) : list Z :=
  match n with
  | O => []
  | S n' => Z.b2z (negb b) :: blink (negb b) n'
  end.

Fixpoint count_true (l : list bool) : nat :=
  match l with
  | [] => O
  | true :: l' => S (count_true l')
  | false :: l' => count_true l'
  end.

Fixpoint count_edges (acts : list activity) : nat :=
  match acts with
  | [] => O
  | Edge :: acts' => S (count_edges acts')
  | Work _ _ :: acts' => count_edges acts'
  end.

(** An evaluation that reads a time less than one window after [t0]
    (an interrupt always qualifies). *)
Definition in_window (api : kernel_api) (t0 : Z) (a : activity) : Prop :=
  match a with
  | Edge => True
  | Work jiffies _ => ulong_sub (to_ulong jiffies) t0 < DebounceWindow api
  end.

(** A call uses the lines the way the driver means to: the button line is
    requested, made an input, read, mapped to an interrupt and freed; the
    LED line is requested, made an output at 0, written with 0 or 1 and
    freed. *)
Definition line_use_ok (e : kevent) : bool :=
  match e with
  | Kgpio_request g _ => (g =? BUTTON_GPIO) || (g =? LED_GPIO)
  | Kgpio_free g => (g =? BUTTON_GPIO) || (g =? LED_GPIO)
  | Kgpio_direction_input g _ => g =? BUTTON_GPIO
  | Kgpio_direction_output g v _ => (g =? LED_GPIO) && (v =? 0)
  | Kgpio_get_value g _ => g =? BUTTON_GPIO
  | Kgpio_set_value g v => (g =? LED_GPIO) && ((v =? 0) || (v =? 1))
  | Kgpio_to_irq g _ => g =? BUTTON_GPIO
  | _ => true
  end.

(** How far the kernel lets [gpio_button_led_init] get. *)
Definition button_acquired (api : kernel_api) : bool :=
  k_gpio_is_valid api BUTTON_GPIO && (0 <=? k_gpio_request api BUTTON_GPIO).
Definition button_ready (api : kernel_api) : bool :=
  button_acquired api && (0 <=? k_gpio_direction_input api BUTTON_GPIO).
Definition led_acquired (api : kernel_api) : bool :=
  button_ready api && k_gpio_is_valid api LED_GPIO
  && (0 <=? k_gpio_request api LED_GPIO).
Definition led_ready (api : kernel_api) : bool :=
  led_acquired api && (0 <=? k_gpio_direction_output api LED_GPIO 0).
Definition workqueue_ready (api : kernel_api) : bool :=
  led_ready api && k_create_singlethread_workqueue api.
Definition init_ok (api : kernel_api) : bool :=
  workqueue_ready api
  && (0 <=? k_request_irq api (to_uint (k_gpio_to_irq api BUTTON_GPIO))).

(** A kernel that cannot create the workqueue. *)
Definition kernel_no_wq : kernel_api :=
  {| k_gpio_is_valid := fun _ => true;
     k_gpio_request := fun _ => 0;
     k_gpio_direction_input := fun _ => 0;
     k_gpio_direction_output := fun _ _ => 0;
     k_create_singlethread_workqueue := false;
     k_gpio_to_irq := fun gpio => 100 + gpio;
     k_request_irq := fun _ => 0;
     k_msecs_to_jiffies := fun m => m |}.

(** A kernel where the button line is already taken: [gpio_request]
    answers -EBUSY (-16) for it. *)
Definition kernel_button_busy : kernel_api :=
  {| k_gpio_is_valid := fun _ => true;
     k_gpio_request := fun gpio => if gpio =? BUTTON_GPIO then -16 else 0;
     k_gpio_direction_input := fun _ => 0;
     k_gpio_direction_output := fun _ _ => 0;
     k_create_singlethread_workqueue := true;
     k_gpio_to_irq := fun gpio => 100 + gpio;
     k_request_irq := fun _ => 0;
     k_msecs_to_jiffies := fun m => m |}.

(** * Proofs *)

(** ** The equations of button_work_handler *)

Ltac run_monad :=
  cbv [bind ret get modify exec eval gpio_is_valid gpio_request gpio_free
       gpio_direction_input gpio_direction_output gpio_get_value
       gpio_set_value create_singlethread_workqueue destroy_workqueue
       INIT_WORK gpio_to_irq request_irq free_irq queue_work
       button_irq_handler perform].

Lemma handler_rejects (api : kernel_api) (jiffies level : Z) (s : machine) :
  elapsed jiffies s < DebounceWindow api ->
  button_work_handler api jiffies level s = (tt, s).
Proof.
  intros Hlt. unfold button_work_handler, elapsed, DebounceWindow in *.
  run_monad. apply Z.ltb_lt in Hlt. rewrite Hlt. reflexivity.
Qed.

Lemma handler_accepts (api : kernel_api) (jiffies level : Z) (s : machine) :
  DebounceWindow api <= elapsed jiffies s ->
  button_work_handler api jiffies level s = (tt, accepted_state jiffies level s).
Proof.
  intros Hge. unfold button_work_handler, elapsed, DebounceWindow in *.
  run_monad. apply Z.ltb_ge in Hge. rewrite Hge.
  unfold accepted_state, log, set_last_interrupt_time, set_led_state. simpl.
  destruct (level =? 0); simpl; [rewrite <- app_assoc|]; reflexivity.
Qed.

Lemma handler_cases (api : kernel_api) (jiffies level : Z) (s : machine) :
  exec (button_work_handler api jiffies level) s = s \/
  exec (button_work_handler api jiffies level) s = accepted_state jiffies level s.
Proof.
  destruct (Z.lt_ge_cases (elapsed jiffies s) (DebounceWindow api)) as [H|H].
  - left. unfold exec. rewrite handler_rejects by exact H. reflexivity.
  - right. unfold exec. rewrite handler_accepts by exact H. reflexivity.
Qed.

Lemma last_written_app (gpio : Z) (l1 l2 : list kevent) :
  last_written gpio (l1 ++ l2) = fold_left (drive gpio) l2 (last_written gpio l1).
Proof. unfold last_written. apply fold_left_app. Qed.

Lemma accepted_state_mirrors (jiffies level : Z) (s : machine) :
  mirrors s -> mirrors (accepted_state jiffies level s).
Proof.
  unfold mirrors, accepted_state. simpl. intros Hm.
  rewrite last_written_app.
  destruct (level =? 0); simpl; [reflexivity | exact Hm].
Qed.

Lemma handler_mirrors (api : kernel_api) (jiffies level : Z) (s : machine) :
  mirrors s -> mirrors (exec (button_work_handler api jiffies level) s).
Proof.
  intros Hm. destruct (handler_cases api jiffies level s) as [-> | ->].
  - exact Hm.
  - apply accepted_state_mirrors, Hm.
Qed.

Lemma irq_handler_state (s : machine) :
  exec button_irq_handler s = log Kqueue_work s.
Proof. reflexivity. Qed.

Lemma irq_handler_mirrors (s : machine) :
  mirrors s -> mirrors (exec button_irq_handler s).
Proof.
  unfold mirrors. rewrite irq_handler_state. simpl. intros Hm.
  rewrite last_written_app. simpl. exact Hm.
Qed.

Lemma perform_mirrors (api : kernel_api) (a : activity) (s : machine) :
  mirrors s -> mirrors (exec (perform api a) s).
Proof.
  destruct a as [|j l]; simpl.
  - apply irq_handler_mirrors.
  - apply handler_mirrors.
Qed.

Lemma run_mirrors (api : kernel_api) (acts : list activity) (s : machine) :
  mirrors s -> mirrors (run api acts s).
Proof.
  revert s. induction acts as [|a acts IH]; intros s Hm; simpl.
  - exact Hm.
  - apply IH, perform_mirrors, Hm.
Qed.

(** ** C1 *)

(** C1: a notification evaluated less than one debounce window after the
    stored timestamp (the difference taken in unsigned long arithmetic) is
    rejected and leaves the whole state as it was: led_state, the stored
    timestamp and the kernel log, so nothing is written to the LED line;
    any other notification stores the time read as the new timestamp. *)
Theorem debounce_filter (api : kernel_api) (jiffies level : Z) (s : machine) :
  (elapsed jiffies s < DebounceWindow api ->
     exec (button_work_handler api jiffies level) s = s) /\
  (DebounceWindow api <= elapsed jiffies s ->
     last_interrupt_time (exec (button_work_handler api jiffies level) s)
     = to_ulong jiffies).
Proof.
  split; intros H; unfold exec.
  - rewrite handler_rejects by exact H. reflexivity.
  - rewrite handler_accepts by exact H. reflexivity.
Qed.

Lemma debounce_filter_witness :
  exec (button_work_handler kernel_hz1000 1050 0) (accepted_state 1000 0 started)
    = accepted_state 1000 0 started /\
  last_interrupt_time
    (exec (button_work_handler kernel_hz1000 1200 0) (accepted_state 1000 0 started))
    = 1200.
Proof.
  split.
  - apply (proj1 (debounce_filter kernel_hz1000 1050 0 (accepted_state 1000 0 started))).
    vm_compute. reflexivity.
  - apply (proj2 (debounce_filter kernel_hz1000 1200 0 (accepted_state 1000 0 started))).
    vm_compute. discriminate.
Defined.

(** ** C2 *)

(** C2: an accepted notification samples the button line.  When the level
    read is 0 (pressed, the line is active low), led_state is flipped and
    its new value is written to the LED line; for any other level led_state
    keeps its value and the sample is the only kernel call made, so nothing
    is written.  The handler returns nothing in both cases, and in both
    the stored timestamp is the time just read. *)
Theorem accept_samples_and_toggles
  (api : kernel_api) (jiffies level : Z) (s : machine) :
  DebounceWindow api <= elapsed jiffies s ->
  let s' := exec (button_work_handler api jiffies level) s in
  last_interrupt_time s' = to_ulong jiffies /\
  (level = 0 ->
     led_state s' = negb (led_state s) /\
     klog s' = klog s ++ [Kgpio_get_value BUTTON_GPIO 0;
                          Kgpio_set_value LED_GPIO (Z.b2z (led_state s'))]) /\
  (level <> 0 ->
     led_state s' = led_state s /\
     klog s' = klog s ++ [Kgpio_get_value BUTTON_GPIO level] /\
     set_values (klog s') = set_values (klog s)).
Proof.
  intros Hge s'. subst s'. unfold exec.
  rewrite handler_accepts by exact Hge. simpl.
  split; [reflexivity|]. split.
  - intros ->. simpl. auto.
  - intros Hne. apply Z.eqb_neq in Hne. rewrite Hne.
    repeat split. unfold set_values. rewrite filter_app. simpl.
    apply app_nil_r.
Qed.

Lemma accept_samples_and_toggles_witness :
  (led_state (exec (button_work_handler kernel_hz1000 1000 0) started) = true /\
   klog (exec (button_work_handler kernel_hz1000 1000 0) started)
   = klog started ++ [Kgpio_get_value BUTTON_GPIO 0; Kgpio_set_value LED_GPIO 1]) /\
  (led_state (exec (button_work_handler kernel_hz1000 1000 1) started) = false /\
   last_interrupt_time (exec (button_work_handler kernel_hz1000 1000 1) started)
   = 1000).
Proof.
  assert (Hw : DebounceWindow kernel_hz1000 <= elapsed 1000 started)
    by (vm_compute; discriminate).
  split.
  - exact (proj1 (proj2 (accept_samples_and_toggles kernel_hz1000 1000 0 started Hw))
             eq_refl).
  - split.
    + apply (proj2 (accept_samples_and_toggles kernel_hz1000 1000 1 started Hw)).
      discriminate.
    + exact (proj1 (accept_samples_and_toggles kernel_hz1000 1000 1 started Hw)).
Defined.

(** ** C4 *)

(** C4: a notification evaluated exactly one debounce window after the
    stored timestamp is accepted: the timestamp is replaced by the time
    read and the button line is sampled. *)
Theorem window_edge_is_accepted
  (api : kernel_api) (jiffies level : Z) (s : machine) :
  elapsed jiffies s = DebounceWindow api ->
  exec (button_work_handler api jiffies level) s = accepted_state jiffies level s /\
  last_interrupt_time (exec (button_work_handler api jiffies level) s)
  = to_ulong jiffies /\
  In (Kgpio_get_value BUTTON_GPIO level)
     (klog (exec (button_work_handler api jiffies level) s)).
Proof.
  intros Heq. unfold exec. rewrite handler_accepts by lia. simpl.
  repeat split. apply in_or_app. right. left. reflexivity.
Qed.

Lemma window_edge_is_accepted_witness :
  exec (button_work_handler kernel_hz1000 1200 0) (accepted_state 1000 0 started)
  = accepted_state 1200 0 (accepted_state 1000 0 started).
Proof.
  apply (window_edge_is_accepted kernel_hz1000 1200 0 (accepted_state 1000 0 started)).
  vm_compute. reflexivity.
Defined.


Ltac open_init :=
  unfold gpio_button_led_init, fail_workqueue, fail_led_direction,
    fail_button_direction; run_monad;
  cbn [fst snd irq_number led_state button_wq last_interrupt_time klog
       log set_irq_number set_led_state set_button_wq set_last_interrupt_time].

Lemma init_keeps_statics (api : kernel_api) (s : machine) :
  led_state (exec (gpio_button_led_init api) s) = led_state s /\
  last_interrupt_time (exec (gpio_button_led_init api) s) = last_interrupt_time s.
Proof.
  open_init.
  repeat match goal with
         | |- context [if ?c then _ else _] => destruct c
         end; cbn [fst snd led_state last_interrupt_time]; auto.
Qed.

Lemma to_uint_nonneg (z : Z) : 0 <= to_uint z.
Proof. unfold to_uint, UINT_BITS. apply Z.mod_pos_bound. reflexivity. Qed.

Lemma irq_error_check_is_dead (z : Z) : (to_uint z <? 0) = false.
Proof. apply Z.ltb_ge, to_uint_nonneg. Qed.

Ltac split_init :=
  repeat match goal with
         | |- context [to_uint ?z <? 0] => rewrite (irq_error_check_is_dead z)
         | |- context [if negb ?c then _ else _] =>
             destruct c eqn:?; cbn [negb]
         | |- context [if ?a <? ?b then _ else _] => destruct (a <? b) eqn:?
         end;
  cbn [fst snd negb irq_number led_state button_wq last_interrupt_time klog].

Ltac ltb_facts :=
  repeat match goal with
         | H : (_ <? _) = true |- _ => apply Z.ltb_lt in H
         | H : (_ <? _) = false |- _ => apply Z.ltb_ge in H
         end.

Ltac norm_log :=
  cbn [fst snd irq_number led_state button_wq last_interrupt_time klog
       log set_irq_number set_led_state set_button_wq set_last_interrupt_time];
  repeat rewrite <- app_assoc; cbn [app].

Lemma init_success_log (api : kernel_api) (s : machine) :
  eval (gpio_button_led_init api) s = 0 ->
  (0 <= k_gpio_request api BUTTON_GPIO /\
   0 <= k_gpio_request api LED_GPIO /\
   0 <= k_gpio_direction_output api LED_GPIO 0 /\
   0 <= k_request_irq api (to_uint (k_gpio_to_irq api BUTTON_GPIO))) /\
  irq_number (exec (gpio_button_led_init api) s)
  = to_uint (k_gpio_to_irq api BUTTON_GPIO) /\
  klog (exec (gpio_button_led_init api) s) = klog s ++ init_calls api.
Proof.
  open_init. split_init; intros Hr; ltb_facts;
    try (exfalso; unfold ENODEV, ENOMEM in *; lia).
  split; [auto|]. norm_log. split; reflexivity.
Qed.

Lemma init_success_state (api : kernel_api) :
  eval (gpio_button_led_init api) module_loaded = 0 ->
  let s0 := exec (gpio_button_led_init api) module_loaded in
  led_state s0 = false /\ last_interrupt_time s0 = 0 /\
  klog s0 = init_calls api /\ mirrors s0.
Proof.
  intros Hr s0. subst s0.
  destruct (init_keeps_statics api module_loaded) as [Hled Hlast].
  destruct (init_success_log api module_loaded Hr) as [(_ & _ & Hout & _) [_ Hlog]].
  simpl in Hlog. repeat split; try assumption.
  unfold mirrors. rewrite Hlog, Hled. unfold init_calls, last_written.
  cbn [fold_left drive]. rewrite Z.eqb_refl.
  apply Z.ltb_ge in Hout. rewrite Hout. reflexivity.
Qed.

Lemma started_ok : eval (gpio_button_led_init kernel_hz1000) module_loaded = 0.
Proof. reflexivity. Qed.

(** ** C9 *)

Lemma early_run (api : kernel_api) (acts : list activity) (s : machine) :
  last_interrupt_time s = 0 ->
  Forall (early api) acts ->
  led_state (run api acts s) = led_state s /\
  last_interrupt_time (run api acts s) = 0 /\
  set_values (klog (run api acts s)) = set_values (klog s).
Proof.
  revert s. induction acts as [|a acts IH]; intros s Hz Hall; simpl.
  - auto.
  - inversion Hall as [|a' acts' Ha Hrest]; subst.
    destruct a as [|j l]; simpl in *.
    + rewrite irq_handler_state.
      destruct (IH (log Kqueue_work s) Hz Hrest) as (H1 & H2 & H3).
      repeat split; try assumption.
      rewrite H3. simpl. unfold set_values. rewrite filter_app. simpl.
      apply app_nil_r.
    + unfold exec. rewrite handler_rejects.
      * apply IH; assumption.
      * unfold elapsed. rewrite Hz. exact Ha.
Qed.

(** C9: the stored timestamp is 0 after start-up, so as long as the work
    item only runs at times t with t - 0 below the debounce window (in
    unsigned long arithmetic), every evaluation is rejected, whatever level
    the button has: led_state stays false, the timestamp stays 0 and
    gpio_set_value is never called; in particular one such evaluation of a
    pressed button leaves the state as start-up left it. *)
Theorem early_presses_are_dropped
  (api : kernel_api) (acts : list activity) (jiffies level : Z) :
  eval (gpio_button_led_init api) module_loaded = 0 ->
  Forall (early api) acts ->
  ulong_sub (to_ulong jiffies) 0 < DebounceWindow api ->
  let s0 := exec (gpio_button_led_init api) module_loaded in
  led_state (run api acts s0) = false /\
  last_interrupt_time (run api acts s0) = 0 /\
  set_values (klog (run api acts s0)) = [] /\
  exec (button_work_handler api jiffies level) s0 = s0.
Proof.
  intros Hr Hall Ht s0.
  destruct (init_success_state api Hr) as (Hled & Hlast & Hlog & _).
  fold s0 in Hled, Hlast, Hlog.
  destruct (early_run api acts s0 Hlast Hall) as (H1 & H2 & H3).
  rewrite H1, H2, H3, Hled, Hlog. repeat split.
  unfold exec. rewrite handler_rejects; [reflexivity|].
  unfold elapsed. rewrite Hlast. exact Ht.
Qed.

Lemma early_presses_are_dropped_witness :
  led_state (run kernel_hz1000 [Edge; Work 10 0; Edge; Work 199 0] started) = false /\
  exec (button_work_handler kernel_hz1000 150 0) started = started.
Proof.
  assert (Hall : Forall (early kernel_hz1000) [Edge; Work 10 0; Edge; Work 199 0]).
  { repeat constructor. }
  assert (Ht : ulong_sub (to_ulong 150) 0 < DebounceWindow kernel_hz1000)
    by reflexivity.
  pose proof (early_presses_are_dropped kernel_hz1000 _ 150 0 started_ok Hall Ht)
    as (H1 & _ & _ & H4).
  split; [exact H1 | exact H4].
Defined.

(** ** C3 *)

Lemma spaced_presses_toggle (api : kernel_api) (ts : list Z) (s : machine) :
  mirrors s ->
  spaced api (last_interrupt_time s) ts ->
  toggles api (map pressed_at ts) s = repeat true (length ts) /\
  Forall mirrors (states api (map pressed_at ts) s).
Proof.
  revert s. induction ts as [|t ts IH]; intros s Hm Hsp; simpl.
  - split; constructor.
  - destruct Hsp as [Hge Hrest]. unfold exec.
    rewrite handler_accepts by exact Hge. cbn [snd].
    pose proof (accepted_state_mirrors t 0 s Hm) as Hm'.
    destruct (IH (accepted_state t 0 s) Hm' Hrest) as [Ht Hs].
    split.
    + rewrite Ht. cbn [accepted_state led_state Z.eqb].
      destruct (led_state s); reflexivity.
    + constructor; assumption.
Qed.

(** C3 (as the code has it): when the first evaluation comes at least one
    debounce window after the stored timestamp (0 after start-up) and each
    later one at least one window after the one before it (differences in
    unsigned long arithmetic), and the button reads pressed at each, every
    evaluation toggles led_state and after each one the level last written
    to the LED line is led_state.  With a window of 200 ticks of 1 ms and
    presses evaluated at 0, 50 and 250 after start-up there is exactly one
    toggle, at 250: the evaluations at 0 and 50 fall inside the window that
    starts at the initial timestamp 0. *)
Theorem spaced_presses_all_toggle :
  (forall (api : kernel_api) (ts : list Z) (s : machine),
      mirrors s ->
      spaced api (last_interrupt_time s) ts ->
      toggles api (map pressed_at ts) s = repeat true (length ts) /\
      Forall mirrors (states api (map pressed_at ts) s)) /\
  toggles kernel_hz1000 (map pressed_at [0; 50; 250]) started
  = [false; false; true] /\
  map led_state (states kernel_hz1000 (map pressed_at [0; 50; 250]) started)
  = [false; false; true].
Proof.
  split; [exact spaced_presses_toggle|]. split; vm_compute; reflexivity.
Qed.

Lemma spaced_presses_all_toggle_witness :
  toggles kernel_hz1000 (map pressed_at [200; 400; 1000]) started
  = [true; true; true].
Proof.
  refine (proj1 (proj1 spaced_presses_all_toggle kernel_hz1000 [200; 400; 1000]
                   started _ _)).
  - exact (proj2 (proj2 (proj2 (init_success_state kernel_hz1000 started_ok)))).
  - vm_compute. repeat split; discriminate.
Defined.

(** The claim as the specification words it fails right after start-up:
    presses evaluated at 0 and 250 are 250 ticks apart, yet the first one
    does not toggle; and of the presses at 0, 50 and 250 only the last
    toggles, not the first and the last. *)
Lemma first_press_after_start_is_dropped :
  spaced_apart kernel_hz1000 [0; 250] /\
  toggles kernel_hz1000 (map pressed_at [0; 250]) started <> repeat true 2 /\
  toggles kernel_hz1000 (map pressed_at [0; 50; 250]) started
  <> [true; false; true].
Proof.
  split; [|split].
  - vm_compute. repeat split; discriminate.
  - vm_compute. discriminate.
  - vm_compute. discriminate.
Qed.

(** ** C5 *)

Lemma exit_state (s : machine) :
  exec gpio_button_led_exit s
  = {| irq_number := irq_number s; led_state := led_state s;
       button_wq := button_wq s;
       last_interrupt_time := last_interrupt_time s;
       klog := klog s ++ [Kfree_irq (irq_number s); Kdestroy_workqueue;
                          Kgpio_set_value LED_GPIO 0; Kgpio_free LED_GPIO;
                          Kgpio_free BUTTON_GPIO] |}.
Proof.
  unfold gpio_button_led_exit. run_monad. unfold log. simpl.
  repeat rewrite <- app_assoc. reflexivity.
Qed.

Lemma led_state_changes_only_on_accept
  (api : kernel_api) (a : activity) (s : machine) :
  led_state (exec (perform api a) s) <> led_state s ->
  exists jiffies,
    a = Work jiffies 0 /\
    DebounceWindow api <= elapsed jiffies s /\
    klog (exec (perform api a) s)
    = klog s ++ [Kgpio_get_value BUTTON_GPIO 0;
                 Kgpio_set_value LED_GPIO
                   (Z.b2z (led_state (exec (perform api a) s)))].
Proof.
  destruct a as [|j l]; cbn [perform].
  - rewrite irq_handler_state. simpl. congruence.
  - destruct (Z.lt_ge_cases (elapsed j s) (DebounceWindow api)) as [H|H];
      unfold exec.
    + rewrite handler_rejects by exact H. simpl. congruence.
    + rewrite handler_accepts by exact H. simpl.
      destruct (Z.eqb_spec l 0) as [->|Hne]; [|congruence].
      intros _. exists j. auto.
Qed.

(** C5 (as the code has it): after a successful start led_state is false
    and the LED line has been set to 0; from then on, after any number of
    interrupts and evaluations and until shutdown begins, led_state is the
    last level written to the LED line; a step changes led_state only when
    it is an accepted evaluation of a pressed button, and that step writes
    the new value to the line.  Shutdown writes 0 to the line and leaves
    led_state as it was, so afterwards the line is at 0 whatever led_state
    holds. *)
Theorem led_state_mirrors_line_until_exit (api : kernel_api) :
  eval (gpio_button_led_init api) module_loaded = 0 ->
  let s0 := exec (gpio_button_led_init api) module_loaded in
  (led_state s0 = false /\ last_written LED_GPIO (klog s0) = Some 0) /\
  (forall acts, mirrors (run api acts s0)) /\
  (forall a s,
      led_state (exec (perform api a) s) <> led_state s ->
      exists jiffies,
        a = Work jiffies 0 /\
        DebounceWindow api <= elapsed jiffies s /\
        klog (exec (perform api a) s)
        = klog s ++ [Kgpio_get_value BUTTON_GPIO 0;
                     Kgpio_set_value LED_GPIO
                       (Z.b2z (led_state (exec (perform api a) s)))]) /\
  (forall s,
      led_state (exec gpio_button_led_exit s) = led_state s /\
      last_written LED_GPIO (klog (exec gpio_button_led_exit s)) = Some 0).
Proof.
  intros Hr s0.
  destruct (init_success_state api Hr) as (Hled & _ & _ & Hm). fold s0 in Hled, Hm.
  split; [|split; [|split]].
  - split; [exact Hled|]. unfold mirrors in Hm. rewrite Hled in Hm. exact Hm.
  - intros acts. apply run_mirrors, Hm.
  - apply led_state_changes_only_on_accept.
  - intros s. rewrite exit_state. simpl. split; [reflexivity|].
    rewrite last_written_app. reflexivity.
Qed.

Lemma led_state_mirrors_line_until_exit_witness :
  mirrors (run kernel_hz1000 [Edge; Work 1000 0; Edge; Work 1100 0; Work 1300 1]
             started).
Proof.
  exact (proj1 (proj2 (led_state_mirrors_line_until_exit kernel_hz1000 started_ok)) _).
Defined.

(** The invariant does not survive shutdown: after one accepted press
    led_state is true, and shutdown leaves it true while writing 0. *)
Lemma exit_breaks_the_mirror :
  led_state (exec gpio_button_led_exit (run kernel_hz1000 [pressed_at 1000] started))
  = true /\
  last_written LED_GPIO
    (klog (exec gpio_button_led_exit (run kernel_hz1000 [pressed_at 1000] started)))
  = Some 0 /\
  ~ mirrors (exec gpio_button_led_exit (run kernel_hz1000 [pressed_at 1000] started)).
Proof.
  split; [|split].
  - vm_compute. reflexivity.
  - vm_compute. reflexivity.
  - unfold mirrors. vm_compute. discriminate.
Qed.

(** ** C7 *)

Lemma hold_neutral (st : option (list resource)) (e : kevent) :
  acquired e = None -> released e = None -> hold st e = st.
Proof. intros Ha Hrel. destruct st; simpl; rewrite ?Ha, ?Hrel; reflexivity. Qed.

Lemma held_app (l1 l2 : list kevent) :
  held (l1 ++ l2) = fold_left hold l2 (held l1).
Proof. unfold held. apply fold_left_app. Qed.

Lemma perform_keeps_resources (api : kernel_api) (a : activity) (s : machine) :
  irq_number (exec (perform api a) s) = irq_number s /\
  held (klog (exec (perform api a) s)) = held (klog s).
Proof.
  destruct a as [|j l]; cbn [perform].
  - rewrite irq_handler_state. simpl. split; [reflexivity|].
    rewrite held_app. simpl. apply hold_neutral; reflexivity.
  - destruct (handler_cases api j l s) as [-> | ->]; [auto|].
    simpl. split; [reflexivity|]. rewrite held_app.
    destruct (l =? 0); simpl; rewrite !hold_neutral; reflexivity.
Qed.

Lemma run_keeps_resources (api : kernel_api) (acts : list activity) (s : machine) :
  irq_number (run api acts s) = irq_number s /\
  held (klog (run api acts s)) = held (klog s).
Proof.
  revert s. induction acts as [|a acts IH]; intros s; simpl; [auto|].
  destruct (perform_keeps_resources api a s) as [H1 H2].
  destruct (IH (exec (perform api a) s)) as [H3 H4].
  split; congruence.
Qed.

Lemma init_success_held (api : kernel_api) :
  eval (gpio_button_led_init api) module_loaded = 0 ->
  held (klog (exec (gpio_button_led_init api) module_loaded))
  = Some [Irq (irq_number (exec (gpio_button_led_init api) module_loaded));
          Workqueue; Line LED_GPIO; Line BUTTON_GPIO].
Proof.
  intros Hr.
  destruct (init_success_log api module_loaded Hr)
    as ((H1 & H2 & H3 & H4) & Hirq & Hlog).
  rewrite Hlog, Hirq. simpl klog. unfold held, init_calls.
  apply Z.ltb_ge in H1, H2, H4.
  cbn [app fold_left hold acquired released]. rewrite H1.
  cbn [fold_left hold acquired released]. rewrite H2.
  cbn [fold_left hold acquired released]. rewrite H4. reflexivity.
Qed.

(** C7: shutdown makes these kernel calls and no other, in this order:
    free_irq on the stored interrupt number, destroy_workqueue (which
    returns once the work item is no longer queued or running),
    gpio_set_value(LED, 0), gpio_free(LED), gpio_free(BUTTON).  The LED
    line is left at 0 whatever led_state holds, the interrupt is released
    before either line is, and after a successful start and any activity
    every resource acquired has been given back, last acquired first. *)
Theorem exit_order :
  (forall s : machine,
      klog (exec gpio_button_led_exit s)
      = klog s ++ [Kfree_irq (irq_number s); Kdestroy_workqueue;
                   Kgpio_set_value LED_GPIO 0; Kgpio_free LED_GPIO;
                   Kgpio_free BUTTON_GPIO] /\
      last_written LED_GPIO (klog (exec gpio_button_led_exit s)) = Some 0) /\
  (forall (api : kernel_api) (acts : list activity),
      eval (gpio_button_led_init api) module_loaded = 0 ->
      held (klog (exec gpio_button_led_exit
                    (run api acts (exec (gpio_button_led_init api) module_loaded))))
      = Some []).
Proof.
  split.
  - intros s. rewrite exit_state. simpl. split; [reflexivity|].
    rewrite last_written_app. reflexivity.
  - intros api acts Hr. rewrite exit_state. cbn [klog].
    destruct (run_keeps_resources api acts
                (exec (gpio_button_led_init api) module_loaded)) as [Hirq Hheld].
    rewrite held_app, Hheld, Hirq, (init_success_held api Hr).
    cbn [fold_left hold acquired released resource_eqb].
    rewrite !Z.eqb_refl. reflexivity.
Qed.

Lemma exit_order_witness :
  held (klog (exec gpio_button_led_exit
                (run kernel_hz1000 [Edge; Work 1000 0] started))) = Some [].
Proof.
  exact (proj2 exit_order kernel_hz1000 [Edge; Work 1000 0] started_ok).
Defined.

(** ** C6 *)

Ltac audit_log :=
  unfold module_loaded; norm_log;
  unfold held, irq_armed, acquisitions, releases, BUTTON_GPIO, LED_GPIO in *;
  repeat (cbn [fold_left hold acquired released collect existsb is_irq
               rev app resource_eqb orb];
          match goal with
          | H : (?a <? ?b) = _ |- context [?a <? ?b] => rewrite H
          end);
  cbn [fold_left hold acquired released collect existsb is_irq
       rev app resource_eqb orb Z.eqb Pos.eqb].


Lemma init_failure_releases (api : kernel_api) :
  eval (gpio_button_led_init api) module_loaded <> 0 ->
  let l := klog (exec (gpio_button_led_init api) module_loaded) in
  held l = Some [] /\ releases l = rev (acquisitions l) /\ irq_armed l = false.
Proof.
  open_init. split_init; intros Hr;
    try (exfalso; apply Hr; reflexivity);
    audit_log; repeat split.
Qed.




(** ** C8 *)

(** A failing request_irq is reported: its negative result is what
    gpio_button_led_init returns. *)
Lemma request_irq_failure_is_returned (api : kernel_api) :
  k_gpio_is_valid api BUTTON_GPIO = true ->
  0 <= k_gpio_request api BUTTON_GPIO ->
  0 <= k_gpio_direction_input api BUTTON_GPIO ->
  k_gpio_is_valid api LED_GPIO = true ->
  0 <= k_gpio_request api LED_GPIO ->
  0 <= k_gpio_direction_output api LED_GPIO 0 ->
  k_create_singlethread_workqueue api = true ->
  k_request_irq api (to_uint (k_gpio_to_irq api BUTTON_GPIO)) < 0 ->
  eval (gpio_button_led_init api) module_loaded
  = k_request_irq api (to_uint (k_gpio_to_irq api BUTTON_GPIO)).
Proof.
  intros Hv1 H1 H2 Hv2 H3 H4 Hwq H5.
  apply Z.ltb_ge in H1, H2, H3, H4. apply Z.ltb_lt in H5.
  open_init. rewrite Hv1, H1, H2, Hv2, H3, H4, Hwq. cbn [negb fst snd irq_number].
  rewrite irq_error_check_is_dead, H5. reflexivity.
Qed.

Lemma failing_request_irq_fails_init (api : kernel_api) (s : machine) :
  k_request_irq api (to_uint (k_gpio_to_irq api BUTTON_GPIO)) < 0 ->
  eval (gpio_button_led_init api) s < 0.
Proof.
  intros Hreq. open_init. split_init; ltb_facts;
    unfold ENODEV, ENOMEM in *; lia.
Qed.

(** A negative [int] stored in an [unsigned int] has the top bit set. *)
Lemma negative_as_uint (z : Z) :
  is_int z -> z < 0 -> 2 ^ (UINT_BITS - 1) <= to_uint z.
Proof.
  unfold is_int, to_uint, UINT_BITS. intros [Hlo _] Hneg.
  change (2 ^ (32 - 1)) with 2147483648 in *.
  change (2 ^ 32) with 4294967296.
  rewrite <- (Z_mod_plus_full z 1 4294967296).
  rewrite Z.mod_small; lia.
Qed.

(** C8: on a kernel whose request_irq fails for a number that has no
    descriptor, gpio_button_led_init fails whenever the button line cannot
    be bound to an interrupt, be it that gpio_to_irq returns a negative
    value or that request_irq does: it returns a negative result, no
    interrupt is armed and everything acquired has been released.  The
    test of irq_number against 0 never fires (the variable is unsigned);
    a failed lookup is caught by request_irq, which is called with the
    error stored as a number: when all earlier steps went through, the
    result returned is the one of request_irq. *)
Theorem irq_binding_failure_fails_init (api : kernel_api) :
  request_irq_checks_number api ->
  is_int (k_gpio_to_irq api BUTTON_GPIO) ->
  k_gpio_to_irq api BUTTON_GPIO < 0 \/
  k_request_irq api (to_uint (k_gpio_to_irq api BUTTON_GPIO)) < 0 ->
  eval (gpio_button_led_init api) module_loaded < 0 /\
  irq_armed (klog (exec (gpio_button_led_init api) module_loaded)) = false /\
  held (klog (exec (gpio_button_led_init api) module_loaded)) = Some [] /\
  (workqueue_ready api = true ->
   eval (gpio_button_led_init api) module_loaded
   = k_request_irq api (to_uint (k_gpio_to_irq api BUTTON_GPIO)) /\
   In (Krequest_irq (to_uint (k_gpio_to_irq api BUTTON_GPIO))
         (k_request_irq api (to_uint (k_gpio_to_irq api BUTTON_GPIO))))
      (klog (exec (gpio_button_led_init api) module_loaded))).
Proof.
  intros Hk Hint Hfail.
  assert (Hreq : k_request_irq api (to_uint (k_gpio_to_irq api BUTTON_GPIO)) < 0).
  { destruct Hfail as [Hneg | Hreq]; [|exact Hreq].
    apply Hk, negative_as_uint; assumption. }
  pose proof (failing_request_irq_fails_init api module_loaded Hreq) as Hneg.
  assert (Hnz : eval (gpio_button_led_init api) module_loaded <> 0) by lia.
  destruct (init_failure_releases api Hnz) as (Hheld & _ & Harm).
  split; [exact Hneg|]. split; [exact Harm|]. split; [exact Hheld|].
  intros Hwq.
  unfold workqueue_ready, led_ready, led_acquired, button_ready,
    button_acquired in Hwq.
  repeat match goal with
         | H : (_ && _) = true |- _ => apply andb_prop in H; destruct H
         end.
  repeat match goal with
         | H : (0 <=? _) = true |- _ => apply Z.leb_le in H
         end.
  split.
  - apply request_irq_failure_is_returned; assumption.
  - repeat match goal with
           | H : 0 <= _ |- _ => apply Z.ltb_ge in H
           end.
    apply Z.ltb_lt in Hreq.
    open_init.
    repeat match goal with
           | H : ?x = true |- context [?x] => rewrite H
           | H : ?x = false |- context [?x] => rewrite H
           | |- context [to_uint ?z <? 0] => rewrite (irq_error_check_is_dead z)
           end.
    cbn [negb fst snd irq_number]. unfold module_loaded. norm_log.
    cbn [In]. auto 10.
Qed.

Lemma irq_binding_failure_fails_init_witness :
  eval (gpio_button_led_init kernel_no_irq) module_loaded = - EINVAL /\
  irq_armed (klog (exec (gpio_button_led_init kernel_no_irq) module_loaded))
  = false /\
  held (klog (exec (gpio_button_led_init kernel_no_irq) module_loaded)) = Some [].
Proof.
  assert (Hk : request_irq_checks_number kernel_no_irq).
  { intros irq Hirq. cbn [k_request_irq kernel_no_irq].
    change (2 ^ (UINT_BITS - 1)) with (2 ^ 31) in Hirq.
    apply Z.leb_le in Hirq. rewrite Hirq. reflexivity. }
  assert (Hint : is_int (k_gpio_to_irq kernel_no_irq BUTTON_GPIO)).
  { split; [discriminate | reflexivity]. }
  assert (Hfail : k_gpio_to_irq kernel_no_irq BUTTON_GPIO < 0 \/
                  k_request_irq kernel_no_irq
                    (to_uint (k_gpio_to_irq kernel_no_irq BUTTON_GPIO)) < 0).
  { left. reflexivity. }
  destruct (irq_binding_failure_fails_init kernel_no_irq Hk Hint Hfail)
    as (_ & Harm & Hheld & Hret).
  split; [|split; [exact Harm | exact Hheld]].
  exact (proj1 (Hret eq_refl)).
Defined.

(** * Further properties of the driver *)

(** ** The debounce test under counter wrap-around *)

Lemma elapsed_after (s : machine) (D : Z) :
  elapsed (last_interrupt_time s + D) s = D mod 2 ^ ULONG_BITS.
Proof.
  unfold elapsed, ulong_sub, to_ulong.
  rewrite Zminus_mod_idemp_l. f_equal. lia.
Qed.

(** X1: the verdict of the debounce test depends only on the number of
    ticks D since the stored timestamp, reduced modulo 2^32: an evaluation
    D ticks later is rejected when D mod 2^32 is below the window and
    accepted otherwise, wherever the counter wraps in between. *)
Theorem debounce_verdict_modulo_wrap
  (api : kernel_api) (level D : Z) (s : machine) :
  exec (button_work_handler api (last_interrupt_time s + D) level) s
  = if D mod 2 ^ ULONG_BITS <? DebounceWindow api
    then s
    else accepted_state (last_interrupt_time s + D) level s.
Proof.
  destruct (Z.ltb_spec (D mod 2 ^ ULONG_BITS) (DebounceWindow api)) as [H|H];
    unfold exec.
  - rewrite handler_rejects; [reflexivity|]. rewrite elapsed_after. exact H.
  - rewrite handler_accepts; [reflexivity|]. rewrite elapsed_after. exact H.
Qed.

(** ** Bursts *)

Lemma in_window_run (api : kernel_api) (burst : list activity) (s : machine) :
  Forall (in_window api (last_interrupt_time s)) burst ->
  led_state (run api burst s) = led_state s /\
  last_interrupt_time (run api burst s) = last_interrupt_time s /\
  klog (run api burst s) = klog s ++ repeat Kqueue_work (count_edges burst) /\
  toggles api burst s = repeat false (length burst).
Proof.
  revert s. induction burst as [|a burst IH]; intros s Hall; cbn [run toggles].
  - cbn. rewrite app_nil_r. auto.
  - inversion Hall as [|a' burst' Ha Hrest]; subst.
    destruct a as [|j l]; cbn [perform count_edges length repeat].
    + rewrite irq_handler_state.
      destruct (IH (log Kqueue_work s) Hrest) as (H1 & H2 & H3 & H4).
      rewrite H1, H2, H3, H4. cbn [log led_state last_interrupt_time klog].
      rewrite <- app_assoc, Bool.eqb_reflx. auto.
    + unfold exec. rewrite handler_rejects by exact Ha. cbn [snd].
      destruct (IH s Hrest) as (H1 & H2 & H3 & H4).
      rewrite H4, Bool.eqb_reflx. auto.
Qed.

(** X2: a burst of interrupts and evaluations that all come less than one
    window after the stored timestamp changes nothing but the count of
    queue_work calls: no evaluation toggles, the button is not even read,
    and the timestamp stays, so the window is not pushed back by the
    rejected evaluations: the first evaluation at or beyond one window from
    the stored timestamp is accepted as if the burst had not happened. *)
Theorem burst_in_window_is_ignored
  (api : kernel_api) (burst : list activity) (jiffies level : Z) (s : machine) :
  Forall (in_window api (last_interrupt_time s)) burst ->
  DebounceWindow api <= elapsed jiffies s ->
  led_state (run api burst s) = led_state s /\
  last_interrupt_time (run api burst s) = last_interrupt_time s /\
  klog (run api burst s) = klog s ++ repeat Kqueue_work (count_edges burst) /\
  toggles api burst s = repeat false (length burst) /\
  exec (button_work_handler api jiffies level) (run api burst s)
  = accepted_state jiffies level (run api burst s).
Proof.
  intros Hall Hge.
  destruct (in_window_run api burst s Hall) as (H1 & H2 & H3 & H4).
  repeat split; try assumption.
  unfold exec. rewrite handler_accepts; [reflexivity|].
  unfold elapsed in *. rewrite H2. exact Hge.
Qed.

Lemma burst_in_window_is_ignored_witness :
  klog (run kernel_hz1000 [Edge; Work 1010 0; Edge; Work 1150 0; Work 1199 1]
          (accepted_state 1000 0 started))
  = klog (accepted_state 1000 0 started) ++ [Kqueue_work; Kqueue_work] /\
  led_state
    (exec (button_work_handler kernel_hz1000 1200 0)
       (run kernel_hz1000 [Edge; Work 1010 0; Edge; Work 1150 0; Work 1199 1]
          (accepted_state 1000 0 started))) = false.
Proof.
  assert (Hall : Forall (in_window kernel_hz1000
                           (last_interrupt_time (accepted_state 1000 0 started)))
                   [Edge; Work 1010 0; Edge; Work 1150 0; Work 1199 1]).
  { repeat constructor. }
  assert (Hge : DebounceWindow kernel_hz1000
                <= elapsed 1200 (accepted_state 1000 0 started))
    by (vm_compute; discriminate).
  destruct (burst_in_window_is_ignored kernel_hz1000 _ 1200 0 _ Hall Hge)
    as (_ & _ & H3 & _ & H5).
  split; [exact H3|]. rewrite H5. reflexivity.
Defined.

Lemma writes_app (gpio : Z) (l1 l2 : list kevent) :
  writes gpio (l1 ++ l2) = writes gpio l1 ++ writes gpio l2.
Proof.
  induction l1 as [|e l1 IH]; [reflexivity|].
  destruct e as [| | | | |g v| | | | | | |]; cbn [app writes]; try exact IH.
  destruct (g =? gpio); cbn [app]; [f_equal|]; exact IH.
Qed.

(** X3: noise uses up the window.  When an accepted evaluation finds the
    button released, a press evaluated less than one window after it is
    rejected: led_state is as before the noise and nothing has been
    written to the LED line. *)
Theorem press_after_noise_is_lost
  (api : kernel_api) (jiffies level jiffies' : Z) (s : machine) :
  DebounceWindow api <= elapsed jiffies s ->
  level <> 0 ->
  ulong_sub (to_ulong jiffies') (to_ulong jiffies) < DebounceWindow api ->
  let s1 := exec (button_work_handler api jiffies level) s in
  exec (button_work_handler api jiffies' 0) s1 = s1 /\
  led_state s1 = led_state s /\
  writes LED_GPIO (klog s1) = writes LED_GPIO (klog s) /\
  last_interrupt_time s1 = to_ulong jiffies.
Proof.
  intros Hge Hne Hlt s1.
  assert (Hs1 : s1 = accepted_state jiffies level s).
  { subst s1. unfold exec. rewrite handler_accepts by exact Hge. reflexivity. }
  rewrite Hs1. apply Z.eqb_neq in Hne.
  split.
  - unfold exec. rewrite handler_rejects; [reflexivity|].
    unfold elapsed, accepted_state. cbn [last_interrupt_time]. exact Hlt.
  - unfold accepted_state. cbn [led_state klog last_interrupt_time].
    rewrite Hne. repeat split.
    rewrite writes_app. cbn [writes]. apply app_nil_r.
Qed.

Lemma press_after_noise_is_lost_witness :
  exec (button_work_handler kernel_hz1000 1100 0)
    (exec (button_work_handler kernel_hz1000 1000 1) started)
  = exec (button_work_handler kernel_hz1000 1000 1) started /\
  led_state (exec (button_work_handler kernel_hz1000 1000 1) started) = false.
Proof.
  assert (Hge : DebounceWindow kernel_hz1000 <= elapsed 1000 started)
    by (vm_compute; discriminate).
  assert (Hne : 1 <> 0) by discriminate.
  assert (Hlt : ulong_sub (to_ulong 1100) (to_ulong 1000)
                < DebounceWindow kernel_hz1000) by reflexivity.
  destruct (press_after_noise_is_lost kernel_hz1000 1000 1 1100 started Hge Hne Hlt)
    as (H1 & H2 & _).
  split; [exact H1 | exact H2].
Defined.

(** ** What the LED line sees over a run *)

Lemma perform_led_cases (api : kernel_api) (a : activity) (s : machine) :
  let s1 := exec (perform api a) s in
  (led_state s1 = led_state s /\
   writes LED_GPIO (klog s1) = writes LED_GPIO (klog s)) \/
  (led_state s1 = negb (led_state s) /\
   writes LED_GPIO (klog s1)
   = writes LED_GPIO (klog s) ++ [Z.b2z (negb (led_state s))]).
Proof.
  destruct a as [|j l]; cbn [perform]; cbv zeta.
  - left. rewrite irq_handler_state. cbn [log led_state klog].
    rewrite writes_app. cbn [writes]. rewrite app_nil_r. auto.
  - destruct (handler_cases api j l s) as [-> | ->]; [left; auto|].
    unfold accepted_state. cbn [led_state klog]. rewrite writes_app.
    destruct (l =? 0); [right | left]; cbn [writes]; rewrite ?Z.eqb_refl;
      rewrite ?app_nil_r; auto.
Qed.

Lemma odd_succ_negb (n : nat) : Nat.odd (S n) = negb (Nat.odd n).
Proof. rewrite Nat.odd_succ, <- Nat.negb_odd. reflexivity. Qed.

Lemma run_led_writes (api : kernel_api) (acts : list activity) (s : machine) :
  writes LED_GPIO (klog (run api acts s))
  = writes LED_GPIO (klog s)
    ++ blink (led_state s) (count_true (toggles api acts s)) /\
  led_state (run api acts s)
  = xorb (led_state s) (Nat.odd (count_true (toggles api acts s))).
Proof.
  revert s. induction acts as [|a acts IH]; intros s; cbn [run toggles].
  - cbn. rewrite app_nil_r. destruct (led_state s); auto.
  - destruct (IH (exec (perform api a) s)) as [Hw Hl].
    destruct (perform_led_cases api a s) as [[H1 H2] | [H1 H2]];
      rewrite Hw, Hl, H1, H2.
    + rewrite Bool.eqb_reflx. cbn [negb count_true]. auto.
    + replace (Bool.eqb (led_state s) (negb (led_state s))) with false
        by (destruct (led_state s); reflexivity).
      cbn [negb count_true blink]. rewrite odd_succ_negb, <- app_assoc.
      split; [reflexivity|].
      destruct (led_state s), (Nat.odd _); reflexivity.
Qed.

Lemma init_never_writes (api : kernel_api) :
  writes LED_GPIO (klog (exec (gpio_button_led_init api) module_loaded)) = [] /\
  led_state (exec (gpio_button_led_init api) module_loaded) = false.
Proof.
  split; [|apply (init_keeps_statics api module_loaded)].
  open_init. split_init; unfold module_loaded; norm_log; reflexivity.
Qed.

(** X4: after start-up and any interrupts and evaluations, the values
    written to the LED line with gpio_set_value are 1, 0, 1, 0, ...: one
    write for each evaluation that toggled, none for any other interrupt
    or evaluation and none by start-up itself, the first one switching the
    LED on; led_state is true exactly when the number of toggles so far is
    odd.  Shutdown then adds one last write, of 0, whatever that number
    is, and leaves led_state as it was. *)
Theorem led_writes_alternate (api : kernel_api) (acts : list activity) :
  let s0 := exec (gpio_button_led_init api) module_loaded in
  let n := count_true (toggles api acts s0) in
  writes LED_GPIO (klog s0) = [] /\
  writes LED_GPIO (klog (run api acts s0)) = blink false n /\
  led_state (run api acts s0) = Nat.odd n /\
  writes LED_GPIO (klog (exec gpio_button_led_exit (run api acts s0)))
  = blink false n ++ [0] /\
  led_state (exec gpio_button_led_exit (run api acts s0)) = Nat.odd n.
Proof.
  intros s0 n. subst s0 n.
  destruct (init_never_writes api) as [Hw Hl].
  destruct (run_led_writes api acts
              (exec (gpio_button_led_init api) module_loaded)) as [H1 H2].
  rewrite Hw, Hl in H1. rewrite Hl in H2. cbn [app xorb] in H1, H2.
  split; [exact Hw|]. split; [exact H1|]. split; [exact H2|].
  rewrite exit_state. cbn [klog led_state].
  rewrite writes_app, H1. cbn [writes]. rewrite Z.eqb_refl.
  split; [reflexivity | exact H2].
Qed.

(** ** Which lines the driver touches *)

Lemma line_use_run (api : kernel_api) (acts : list activity) (s : machine) :
  forallb line_use_ok (klog s) = true ->
  forallb line_use_ok (klog (run api acts s)) = true.
Proof.
  revert s. induction acts as [|a acts IH]; intros s Hs; cbn [run]; [exact Hs|].
  apply IH. destruct a as [|j l]; cbn [perform].
  - rewrite irq_handler_state. cbn [log klog].
    rewrite forallb_app, Hs. reflexivity.
  - destruct (handler_cases api j l s) as [-> | ->]; [exact Hs|].
    unfold accepted_state. cbn [klog]. rewrite forallb_app, Hs.
    destruct (l =? 0); [|reflexivity].
    destruct (led_state s); reflexivity.
Qed.

Lemma line_use_init (api : kernel_api) :
  forallb line_use_ok (klog (exec (gpio_button_led_init api) module_loaded)) = true.
Proof.
  open_init. split_init; unfold module_loaded; norm_log; reflexivity.
Qed.

(** X5: over the whole life of the module (start-up, whatever its outcome,
    then any interrupts and evaluations, then shutdown) every GPIO call
    names line 44 or line 61 and uses it in its role: only the button line
    is made an input, read and mapped to an interrupt; only the LED line is
    made an output and written, and only with 0 or 1. *)
Theorem only_button_and_led_lines (api : kernel_api) (acts : list activity) :
  let s0 := exec (gpio_button_led_init api) module_loaded in
  forallb line_use_ok (klog s0) = true /\
  forallb line_use_ok (klog (run api acts s0)) = true /\
  forallb line_use_ok (klog (exec gpio_button_led_exit (run api acts s0))) = true.
Proof.
  intros s0. subst s0.
  pose proof (line_use_init api) as H0.
  pose proof (line_use_run api acts _ H0) as H1.
  repeat split; try assumption.
  rewrite exit_state. cbn [klog]. rewrite forallb_app, H1. reflexivity.
Qed.

(** ** Steady state and resources *)

Lemma collect_app {A B} (f : A -> option B) (l1 l2 : list A) :
  collect f (l1 ++ l2) = collect f l1 ++ collect f l2.
Proof.
  induction l1 as [|a l1 IH]; [reflexivity|].
  cbn [app collect]. destruct (f a); cbn [app]; rewrite IH; reflexivity.
Qed.

(** X6: interrupts and evaluations never acquire or release anything: over
    any run the stored interrupt number and workqueue pointer keep their
    values and the log gains no request or free of a line, of the
    workqueue or of the interrupt. *)
Theorem steady_state_keeps_resources
  (api : kernel_api) (acts : list activity) (s : machine) :
  irq_number (run api acts s) = irq_number s /\
  button_wq (run api acts s) = button_wq s /\
  acquisitions (klog (run api acts s)) = acquisitions (klog s) /\
  releases (klog (run api acts s)) = releases (klog s).
Proof.
  revert s. induction acts as [|a acts IH]; intros s; cbn [run]; [auto|].
  destruct (IH (exec (perform api a) s)) as (H1 & H2 & H3 & H4).
  rewrite H1, H2, H3, H4. clear IH H1 H2 H3 H4.
  unfold acquisitions, releases.
  destruct a as [|j l]; cbn [perform].
  - rewrite irq_handler_state. cbn [log irq_number button_wq klog].
    rewrite !collect_app. cbn [collect acquired released].
    rewrite !app_nil_r. auto.
  - destruct (handler_cases api j l s) as [-> | ->]; [auto|].
    unfold accepted_state. cbn [irq_number button_wq klog].
    rewrite !collect_app.
    destruct (l =? 0); cbn [collect acquired released];
      rewrite !app_nil_r; auto.
Qed.

(** ** Outcomes of gpio_button_led_init *)

Ltac stage_facts :=
  unfold init_ok, workqueue_ready, led_ready, led_acquired, button_ready,
    button_acquired in *;
  repeat match goal with
         | H : (_ && _) = true |- _ => apply andb_prop in H; destruct H
         end;
  repeat match goal with
         | H : (0 <=? _) = true |- _ =>
             rewrite Z.leb_antisym in H; apply negb_true_iff in H
         | H : _ < 0 |- _ => apply Z.ltb_lt in H
         end.

Ltac follow_init :=
  open_init;
  repeat match goal with
         | H : ?x = true |- context [?x] => rewrite H
         | H : ?x = false |- context [?x] => rewrite H
         | |- context [to_uint ?z <? 0] => rewrite (irq_error_check_is_dead z)
         end;
  cbn [negb fst snd irq_number led_state button_wq last_interrupt_time klog].

Lemma init_ok_iff (api : kernel_api) (s : machine) :
  eval (gpio_button_led_init api) s = 0 <-> init_ok api = true.
Proof.
  unfold init_ok, workqueue_ready, led_ready, led_acquired, button_ready,
    button_acquired.
  rewrite !Z.leb_antisym.
  open_init. split_init; cbn [andb negb]; ltb_facts;
    unfold ENODEV, ENOMEM; split; intros Hr;
    try reflexivity; try discriminate; try lia.
Qed.

(** X7: gpio_button_led_init returns 0 exactly when both line numbers are
    valid, the workqueue is created, and gpio_request (both lines),
    gpio_direction_input, gpio_direction_output and request_irq do not
    return a negative value, request_irq being called with what gpio_to_irq
    returned, converted to unsigned int.  Init then leaves the workqueue
    pointer set, the interrupt number equal to that converted value,
    led_state and the debounce timestamp untouched, and has made the eight
    calls of [init_calls] in order. *)
Theorem init_succeeds_iff (api : kernel_api) (s : machine) :
  (eval (gpio_button_led_init api) s = 0 <-> init_ok api = true) /\
  (init_ok api = true ->
   let s' := exec (gpio_button_led_init api) s in
   button_wq s' = true /\
   irq_number s' = to_uint (k_gpio_to_irq api BUTTON_GPIO) /\
   led_state s' = led_state s /\
   last_interrupt_time s' = last_interrupt_time s /\
   klog s' = klog s ++ init_calls api).
Proof.
  split; [apply init_ok_iff|].
  intros Hok s'. subst s'.
  destruct (init_keeps_statics api s) as [Hled Hlast].
  destruct (init_success_log api s (proj2 (init_ok_iff api s) Hok))
    as (_ & Hirq & Hlog).
  repeat split; try assumption.
  stage_facts. follow_init. reflexivity.
Qed.

Lemma init_succeeds_iff_witness :
  eval (gpio_button_led_init kernel_hz1000) module_loaded = 0 /\
  irq_number started = 144 /\ button_wq started = true.
Proof.
  assert (Hok : init_ok kernel_hz1000 = true) by reflexivity.
  split.
  - exact (proj2 (proj1 (init_succeeds_iff kernel_hz1000 module_loaded)) Hok).
  - destruct (proj2 (init_succeeds_iff kernel_hz1000 module_loaded) Hok)
      as (H1 & H2 & _).
    split; [exact H2 | exact H1].
Defined.

(** X8: the error gpio_button_led_init returns is that of the first step
    that fails: -ENODEV for an invalid line number, -ENOMEM when the
    workqueue cannot be created, and otherwise the negative value returned
    by the failing gpio_request, gpio_direction_input,
    gpio_direction_output or request_irq, unchanged.  With an invalid
    button line no kernel call is made and the state is untouched; a failed
    request of the button line is the only call logged; when the workqueue
    cannot be created both lines are freed, the LED line first, and
    destroy_workqueue is not called. *)
Theorem init_error_codes (api : kernel_api) (s : machine) :
  (k_gpio_is_valid api BUTTON_GPIO = false ->
   eval (gpio_button_led_init api) s = - ENODEV /\
   exec (gpio_button_led_init api) s = s) /\
  (k_gpio_is_valid api BUTTON_GPIO = true ->
   k_gpio_request api BUTTON_GPIO < 0 ->
   eval (gpio_button_led_init api) s = k_gpio_request api BUTTON_GPIO /\
   klog (exec (gpio_button_led_init api) s)
   = klog s ++ [Kgpio_request BUTTON_GPIO (k_gpio_request api BUTTON_GPIO)]) /\
  (button_acquired api = true ->
   k_gpio_direction_input api BUTTON_GPIO < 0 ->
   eval (gpio_button_led_init api) s = k_gpio_direction_input api BUTTON_GPIO) /\
  (button_ready api = true ->
   k_gpio_is_valid api LED_GPIO = false ->
   eval (gpio_button_led_init api) s = - ENODEV) /\
  (button_ready api = true ->
   k_gpio_is_valid api LED_GPIO = true ->
   k_gpio_request api LED_GPIO < 0 ->
   eval (gpio_button_led_init api) s = k_gpio_request api LED_GPIO) /\
  (led_acquired api = true ->
   k_gpio_direction_output api LED_GPIO 0 < 0 ->
   eval (gpio_button_led_init api) s = k_gpio_direction_output api LED_GPIO 0) /\
  (led_ready api = true ->
   k_create_singlethread_workqueue api = false ->
   eval (gpio_button_led_init api) s = - ENOMEM /\
   klog (exec (gpio_button_led_init api) s)
   = klog s ++
     [Kgpio_request BUTTON_GPIO (k_gpio_request api BUTTON_GPIO);
      Kgpio_direction_input BUTTON_GPIO (k_gpio_direction_input api BUTTON_GPIO);
      Kgpio_request LED_GPIO (k_gpio_request api LED_GPIO);
      Kgpio_direction_output LED_GPIO 0 (k_gpio_direction_output api LED_GPIO 0);
      Kcreate_singlethread_workqueue false;
      Kgpio_free LED_GPIO; Kgpio_free BUTTON_GPIO]) /\
  (workqueue_ready api = true ->
   k_request_irq api (to_uint (k_gpio_to_irq api BUTTON_GPIO)) < 0 ->
   eval (gpio_button_led_init api) s
   = k_request_irq api (to_uint (k_gpio_to_irq api BUTTON_GPIO))).
Proof.
  repeat split; intros; stage_facts; follow_init; norm_log;
    reflexivity.
Qed.

Lemma init_error_codes_witness :
  eval (gpio_button_led_init kernel_button_busy) module_loaded = -16 /\
  eval (gpio_button_led_init kernel_no_wq) module_loaded = - ENOMEM /\
  ~ In Kdestroy_workqueue
      (klog (exec (gpio_button_led_init kernel_no_wq) module_loaded)).
Proof.
  pose proof (init_error_codes kernel_button_busy module_loaded)
    as (_ & Hbusy & _).
  pose proof (init_error_codes kernel_no_wq module_loaded)
    as (_ & _ & _ & _ & _ & _ & Hwq & _).
  assert (Hneg : k_gpio_request kernel_button_busy BUTTON_GPIO < 0) by reflexivity.
  destruct (Hbusy eq_refl Hneg) as [Hr _].
  destruct (Hwq eq_refl eq_refl) as [Hr' Hlog].
  split; [exact Hr|]. split; [exact Hr'|].
  rewrite Hlog. cbn. intros H.
  repeat (destruct H as [H|H]; [discriminate H|]). exact H.
Defined.
